(** * CLI Buddy: the splash presenter and the command dispatcher of [main.py]

    The program talks to three collaborators only: [console.clear()],
    [console.print(...)] of rich's [Console], and [time.sleep(...)].  The
    embedding keeps the program text of [main.py] in a small state and
    exception monad: every collaborator call is recorded as a [Request]
    (with exactly the arguments the source passes) and then handed to an
    arbitrary implementation of the collaborator, which may change the
    world and may raise.  Of rich's drawing the embedding keeps one rule,
    the one [Align] follows for its [vertical=] argument; of typer it keeps
    the order in which an application with a callback and one subcommand
    reads its command line, for command lines made of the two words
    [main.py] declares, [--no-splash] and [info]. *)

From Stdlib Require Import List String Ascii Bool ZArith QArith Lqa.
Import ListNotations.

Open Scope string_scope.

(** ** Strings *)

(** The line feed that starts both lines of the splash title. *)
Definition LF : string := String (ascii_of_nat 10) EmptyString.

(** [Substring needle hay]: [needle] occurs in [hay] as a contiguous run. *)
Definition Substring (needle hay : string) : Prop :=
  exists pre post, hay = pre ++ needle ++ post.

(** Executable search for [needle] in [hay]. *)
Fixpoint contains (needle hay : string) : bool :=
  String.prefix needle hay ||
  match hay with
  | EmptyString => false
  | String _ rest => contains needle rest
  end.

(** ** The renderables of rich that [main.py] builds *)

(** A run of text with its style, as [Text.append(text, style=...)] adds. *)
Record Span := { span_text : string; span_style : string }.

Module Text.
(** [rich.text.Text]: the spans in the order they were appended. *)
Definition t := list Span.

(** [Text()] *)
Definition new : t := [].

(** [self.append(text, style=style)] *)
Definition append (self : t) (text style : string) : t :=
  (self ++ [ {| span_text := text; span_style := style |} ])%list.

(** [self.plain]: the text without its styles. *)
Definition plain (self : t) : string :=
  String.concat "" (map span_text self).
End Text.

(** What the program hands to [console.print]: a [str] holding console
    markup, a [Text], a [Panel] (rich's bordered container) or an [Align]
    around another renderable. *)
Inductive Renderable :=
| Markup (s : string)
| Styled (text : Text.t)
| Panel (renderable : Renderable) (border_style : string)
        (padding : nat * nat) (subtitle : option string)
| Align (renderable : Renderable) (align : string) (vertical : option string)
        (height : option nat).

Module AlignCls.
(** [Align.center(renderable, vertical=vertical, height=height)]; [None]
    is the keyword left out. *)
Definition center (renderable : Renderable) (vertical : option string)
           (height : option nat) : Renderable :=
  Align renderable "center" vertical height.
End AlignCls.

(** The bordered container around a renderable, looking through alignment:
    its content, the style of its border and the caption on the border. *)
Fixpoint frame_of (r : Renderable)
  : option (Renderable * string * option string) :=
  match r with
  | Panel body border _ caption => Some (body, border, caption)
  | Align inner _ _ _ => frame_of inner
  | Markup _ | Styled _ => None
  end.

(** The text a renderable carries, styles and markup tags left as they are. *)
Fixpoint text_of (r : Renderable) : string :=
  match r with
  | Markup s => s
  | Styled t => Text.plain t
  | Panel body _ _ _ => text_of body
  | Align inner _ _ _ => text_of inner
  end.

(** [Align.center(...)]: centred between the left and the right edge. *)
Definition centered_horizontally (r : Renderable) : bool :=
  match r with
  | Align _ a _ _ => String.eqb a "center"
  | _ => false
  end.

(** The vertical placement the program asks for with [vertical=]. *)
Definition vertical_requested (r : Renderable) : option string :=
  match r with
  | Align _ _ v _ => v
  | _ => None
  end.

(** The vertical placement rich carries out when it renders [r] with render
    options of height [options_height].  [Align] places its content
    vertically only within a height ([self.height or options.height], so a
    height of 0 counts as none); without one it draws the content where
    the cursor is and [vertical=] has no effect. *)
Definition vertical_applied (r : Renderable) (options_height : option nat)
  : option string :=
  match r with
  | Align _ _ (Some v) h =>
      let vertical_height :=
        match h with
        | Some (S n) => Some (S n)
        | _ => options_height
        end in
      match vertical_height with
      | Some _ => Some v
      | None => None
      end
  | _ => None
  end.

(** The height of the render options of [console.print(x)] when the call
    gives no [height=], as both calls of [main.py] do. *)
Definition print_height : option nat := None.

(** A caption written as [[dim]...[/dim]] console markup. *)
Definition dimmed (caption : string) : Prop :=
  exists body, caption = "[dim]" ++ body ++ "[/dim]".

(** ** Collaborator calls *)

(** One call of a collaborator, with its argument. *)
Inductive Request :=
| Clear
| Print (r : Renderable)
| Sleep (secs : Q).

Definition is_clear (r : Request) : bool :=
  match r with Clear => true | _ => false end.

(** Whether the terminal was cleared in a trace.  Only the splash
    presenter calls [console.clear()], and it does so first of all, so this
    tells whether the presenter was entered. *)
Definition splash_ran (log : list Request) : bool := existsb is_clear log.

(** The durations of the [time.sleep] calls of a trace, in order. *)
Fixpoint sleeps (log : list Request) : list Q :=
  match log with
  | [] => []
  | Sleep d :: rest => d :: sleeps rest
  | _ :: rest => sleeps rest
  end.

(** The renderables of the [console.print] calls of a trace, in order. *)
Fixpoint prints (log : list Request) : list Renderable :=
  match log with
  | [] => []
  | Print r :: rest => r :: prints rest
  | _ :: rest => prints rest
  end.

(** Requests that dependable collaborators carry out. *)
Definition acceptable (r : Request) : Prop :=
  match r with
  | Sleep d => 0 <= d
  | _ => True
  end.

(** The collaborators: each call takes the world to a new world and either
    returns ([None]) or raises ([Some fault]). *)
Class Collaborators (World Fault : Type) := {
  clear_impl : World -> option Fault * World;
  print_impl : Renderable -> World -> option Fault * World;
  sleep_impl : Q -> World -> option Fault * World
}.

(** How a call ends: with a value, or with an exception nobody caught. *)
Inductive Result (Fault A : Type) :=
| Returned (a : A)
| Raised (e : Fault).
Arguments Returned {Fault A} a.
Arguments Raised {Fault A} e.

(** The state of a run: the world, and the calls made so far. *)
Record Run (World : Type) := {
  world : World;
  issued : list Request
}.
Arguments world {World} _.
Arguments issued {World} _.

(** A run that starts in world [w] with nothing called yet. *)
Definition start {World : Type} (w : World) : Run World :=
  {| world := w; issued := [] |}.

(** Computations of the program. *)
Definition M (World Fault A : Type) : Type :=
  Run World -> Result Fault A * Run World.

Definition ret {World Fault A : Type} (a : A) : M World Fault A :=
  fun st => (Returned a, st).

(** Sequencing: an exception of the first part skips the second. *)
Definition bind {World Fault A B : Type}
  (m : M World Fault A) (k : A -> M World Fault B) : M World Fault B :=
  fun st =>
    match m st with
    | (Returned a, st') => k a st'
    | (Raised e, st') => (Raised e, st')
    end.

Declare Scope prog_scope.
Delimit Scope prog_scope with prog.
Notation "c1 ;; c2" := (bind c1 (fun _ => c2))
  (at level 61, right associativity) : prog_scope.
Open Scope prog_scope.

(** The process exit status: 0 when the run completes.  When an exception
    leaves the program the status is what typer and the interpreter make of
    that exception; [main.py] has no say in it, and the embedding gives
    none. *)
Definition exit_code {Fault A : Type} (r : Result Fault A) : option Z :=
  match r with
  | Returned _ => Some 0%Z
  | Raised _ => None
  end.

(** How typer ends a run that no exception left: the command line was
    carried out, or typer turned it down as a usage error. *)
Inductive Ending := Completed | UsageError.

(** The exit status typer gives to each ending. *)
Definition status (e : Ending) : Z :=
  match e with
  | Completed => 0%Z
  | UsageError => 2%Z
  end.

(** The process exit status of a run from its command line. *)
Definition exit_status {Fault : Type} (r : Result Fault Ending) : option Z :=
  match r with
  | Returned e => Some (status e)
  | Raised _ => None
  end.

(** The words [main.py] declares for the command line: the option
    [--no-splash] of the callback and the name of the subcommand [info]. *)
Inductive Word := NoSplashFlag | InfoWord.

Definition word_text (w : Word) : string :=
  match w with
  | NoSplashFlag => "--no-splash"
  | InfoWord => "info"
  end.

(** typer reads the options of the callback up to the first word that is
    not an option; that word names the subcommand, and the words after it
    are left to the subcommand.  The result is the value of [no_splash]
    and, when a subcommand was named, the words left to it. *)
Fixpoint callback_options (argv : list Word) (no_splash : bool)
  : bool * option (list Word) :=
  match argv with
  | [] => (no_splash, None)
  | NoSplashFlag :: rest => callback_options rest true
  | InfoWord :: rest => (no_splash, Some rest)
  end.

(** The subcommands registered with [@cli_app.command()]. *)
Inductive Command := Info.

Definition command_name (c : Command) : string :=
  match c with Info => "info" end.

(** [typer.Context], as far as [main] reads it. *)
Record Context := { invoked_subcommand : option string }.

(** The parsed command line: the subcommand named on it, if any, and
    whether [--no-splash] was given. *)
Record Invocation := {
  subcommand : option Command;
  flag_no_splash : bool
}.

Definition is_None {A : Type} (o : option A) : bool :=
  match o with None => true | Some _ => false end.

(** The value of a parameter with a default: the argument when the call
    gives one, the default otherwise. *)
Definition or_default {A : Type} (arg : option A) (default : A) : A :=
  match arg with Some a => a | None => default end.

Section Program.
Context {World Fault : Type} {C : Collaborators World Fault}.

(** The collaborator's implementation of a request. *)
Definition handle (r : Request) : World -> option Fault * World :=
  match r with
  | Clear => clear_impl
  | Print x => print_impl x
  | Sleep d => sleep_impl d
  end.

(** Make one collaborator call: it is recorded, then carried out. *)
Definition perform (r : Request) : M World Fault unit :=
  fun st =>
    let (fault, w') := handle r (world st) in
    let st' := {| world := w'; issued := (issued st ++ [r])%list |} in
    match fault with
    | None => (Returned tt, st')
    | Some e => (Raised e, st')
    end.

(** [console.clear()] *)
Definition console_clear : M World Fault unit := perform Clear.

(** [console.print(x)] *)
Definition console_print (x : Renderable) : M World Fault unit :=
  perform (Print x).

(** [time.sleep(secs)] *)
Definition time_sleep (secs : Q) : M World Fault unit :=
  perform (Sleep secs).

(** [def show_splash_window(duration: float = 2.0)]; [None] is the call
    that leaves the argument out. *)
Definition show_splash_window (duration : option Q) : M World Fault unit :=
  let duration := or_default duration (2 # 1) in
  console_clear ;;
  let splash_title := Text.new in
  let splash_title :=
    Text.append splash_title (LF ++ " CLI Buddy v0.1.0") "bold white" in
  let splash_title :=
    Text.append splash_title
      (LF ++ " Author <Iurii Golubnichenko aka Ghost Rider>") "dim white" in
  let panel :=
    Panel (Styled splash_title) "bright_blue" (1, 4)%nat
          (Some "[dim]Loading ... [/dim]") in
  let centered := AlignCls.center panel (Some "middle") None in
  console_print centered ;;
  time_sleep duration ;;
  console_clear.

(** [def info()] *)
Definition info : M World Fault unit :=
  console_print (Markup "[bold] Info command [/bold]").

(** [def main(ctx, no_splash)], the callback of the application. *)
Definition main (ctx : Context) (no_splash : bool) : M World Fault unit :=
  if is_None (invoked_subcommand ctx) || negb no_splash
  then show_splash_window None
  else ret tt.

(** The function registered for a subcommand. *)
Definition command_callback (c : Command) : M World Fault unit :=
  match c with Info => info end.

(** [cli_app()] on a parsed command line: the callback [main] runs first
    ([invoke_without_command=True] makes it run without a subcommand
    too), then the subcommand that was named. *)
Definition cli_app (inv : Invocation) : M World Fault unit :=
  main {| invoked_subcommand := option_map command_name (subcommand inv) |}
       (flag_no_splash inv) ;;
  match subcommand inv with
  | Some c => command_callback c
  | None => ret tt
  end.

(** A list of calls made one after the other. *)
Fixpoint script (rs : list Request) : M World Fault unit :=
  match rs with
  | [] => ret tt
  | r :: rest => perform r ;; script rest
  end.

(** Collaborators that do not raise: clearing and printing always
    return, sleeping returns for every non-negative duration. *)
Definition Dependable : Prop :=
  (forall w, fst (clear_impl w) = None) /\
  (forall x w, fst (print_impl x w) = None) /\
  (forall d w, 0 <= d -> fst (sleep_impl d w) = None).

(** A wall clock for the world: no collaborator call sets it back, and
    [time.sleep(secs)], when it returns, returns at least [secs] later. *)
Definition Timed (now : World -> Q) : Prop :=
  (forall w, now w <= now (snd (clear_impl w))) /\
  (forall x w, now w <= now (snd (print_impl x w))) /\
  (forall d w, now w <= now (snd (sleep_impl d w))) /\
  (forall d w, 0 <= d -> fst (sleep_impl d w) = None ->
               now w + d <= now (snd (sleep_impl d w))).
End Program.

Section CommandLine.
Context {World Fault : Type} {C : Collaborators World Fault}.

(** [cli_app()] on a command line.  The callback [main] runs as soon as
    its own options are read and the subcommand is resolved; the words
    after the name of the subcommand are parsed only then.  [info]
    declares no parameter, so a word after [info] is a usage error: typer
    ends the run with status 2 and [info] is not called. *)
Definition cli_app_argv (argv : list Word) : M World Fault Ending :=
  match callback_options argv false with
  | (no_splash, None) =>
      main {| invoked_subcommand := None |} no_splash ;;
      ret Completed
  | (no_splash, Some args) =>
      main {| invoked_subcommand := Some (command_name Info) |} no_splash ;;
      match args with
      | [] => command_callback Info ;; ret Completed
      | _ :: _ => ret UsageError
      end
  end.
End CommandLine.

(** The renderable the splash presenter prints. *)
Definition splash_panel : Renderable :=
  Align
    (Panel
       (Styled
          [ {| span_text := LF ++ " CLI Buddy v0.1.0";
               span_style := "bold white" |};
            {| span_text := LF ++ " Author <Iurii Golubnichenko aka Ghost Rider>";
               span_style := "dim white" |} ])
       "bright_blue" (1, 4)%nat (Some "[dim]Loading ... [/dim]"))
    "center" (Some "middle") None.

(** The calls of one splash presentation of [d] seconds. *)
Definition splash_requests (d : Q) : list Request :=
  [Clear; Print splash_panel; Sleep d; Clear].

(** The line the [info] subcommand prints. *)
Definition info_line : Renderable := Markup "[bold] Info command [/bold]".

(** The calls of the callback [main]. *)
Definition main_requests (ctx : Context) (no_splash : bool) : list Request :=
  if is_None (invoked_subcommand ctx) || negb no_splash
  then splash_requests (2 # 1)
  else [].

(** The calls of a whole run, as a function of the parsed command line. *)
Definition cli_requests (inv : Invocation) : list Request :=
  (main_requests
     {| invoked_subcommand := option_map command_name (subcommand inv) |}
     (flag_no_splash inv)
   ++ match subcommand inv with
      | Some Info => [Print info_line]
      | None => []
      end)%list.

(** ** A simulated terminal

    A concrete set of collaborators: the screen holds what was printed
    since the last clear, the clock advances by the time slept, and, as
    Python's [time.sleep] does, sleeping a negative time raises
    [ValueError]. *)
Module Sim.
Inductive Fault := ValueError.

Record World := { clock : Q; screen : list Renderable }.

Definition boot : World := {| clock := 0; screen := [] |}.

Definition clear (w : World) : option Fault * World :=
  (None, {| clock := clock w; screen := [] |}).

Definition print (x : Renderable) (w : World) : option Fault * World :=
  (None, {| clock := clock w; screen := (screen w ++ [x])%list |}).

Definition sleep (d : Q) (w : World) : option Fault * World :=
  if Qle_bool 0 d
  then (None, {| clock := clock w + d; screen := screen w |})
  else (Some ValueError, w).

#[export] Instance terminal : Collaborators World Fault :=
  {| clear_impl := clear; print_impl := print; sleep_impl := sleep |}.
End Sim.


(** ** A test double

    Collaborators that draw nothing, wait for nothing and never raise; the
    world counts the calls. *)
Module Fake.
Definition count (w : nat) : option Empty_set * nat := (None, S w).

#[export] Instance double : Collaborators nat Empty_set :=
  {| clear_impl := count;
     print_impl := fun _ => count;
     sleep_impl := fun _ => count |}.
End Fake.

(** ** A process without a terminal

    Collaborators whose [console.print] raises; clearing and sleeping go
    through, and the world counts the calls that were carried out. *)
Module Headless.
Inductive Fault := BrokenPipeError.



End Headless.


(** ** Facts about strings and traces *)

Lemma prefix_split (p s : string) :
  String.prefix p s = true -> exists post, s = p ++ post.
Proof.
  revert s; induction p as [|a p IH]; intros s H.
  - exists s; reflexivity.
  - destruct s as [|b s]; simpl in H; [discriminate|].
    destruct (ascii_dec a b) as [->|]; [|discriminate].
    destruct (IH s H) as [post ->].
    exists post; reflexivity.
Qed.

Lemma contains_sound (needle hay : string) :
  contains needle hay = true -> Substring needle hay.
Proof.
  induction hay as [|c hay IH]; simpl; intros H.
  - destruct needle; [|discriminate].
    exists "", ""; reflexivity.
  - apply orb_true_iff in H as [H|H].
    + destruct (prefix_split needle (String c hay) H) as [post E].
      exists "", post; exact E.
    + destruct (IH H) as (pre & post & ->).
      exists (String c pre), post; reflexivity.
Qed.

Lemma prints_app (l1 l2 : list Request) :
  prints (l1 ++ l2) = (prints l1 ++ prints l2)%list.
Proof.
  induction l1 as [|[]]; simpl; congruence.
Qed.

Lemma firstn_prefix_in {A : Type} (k : nat) (l : list A) (x : A) :
  In x (firstn k l) -> In x l.
Proof.
  revert l; induction k; intros [|y l]; simpl; try tauto.
  intros [->|H]; auto.
Qed.

Lemma sleeps_in (log : list Request) (d : Q) :
  In d (sleeps log) <-> In (Sleep d) log.
Proof.
  induction log as [|[] log IH]; simpl; split; intros H;
    try tauto; try (right; tauto);
    try (destruct H as [H|H]; [discriminate|tauto]).
  - destruct H as [->|H]; [left; reflexivity|right; tauto].
  - destruct H as [H|H]; [injection H; auto|right; tauto].
Qed.

(** ** Facts about runs *)

Section Facts.
Context {World Fault : Type} {C : Collaborators World Fault}.

Lemma perform_issued (r : Request) (st : Run World) :
  issued (snd (perform r st)) = (issued st ++ [r])%list.
Proof.
  unfold perform; destruct (handle r (world st)) as [[e|] w']; reflexivity.
Qed.

Lemma perform_world (r : Request) (st : Run World) :
  world (snd (perform r st)) = snd (handle r (world st)).
Proof.
  unfold perform; destruct (handle r (world st)) as [[e|] w']; reflexivity.
Qed.

Lemma perform_returned (r : Request) (st st' : Run World) (u : unit) :
  perform r st = (Returned u, st') -> fst (handle r (world st)) = None.
Proof.
  unfold perform; destruct (handle r (world st)) as [[e|] w']; simpl;
    [discriminate|reflexivity].
Qed.

Lemma perform_raised (r : Request) (st st' : Run World) (e : Fault) :
  perform r st = (Raised e, st') -> fst (handle r (world st)) = Some e.
Proof.
  unfold perform; destruct (handle r (world st)) as [[e'|] w']; simpl;
    intros H; [congruence|discriminate].
Qed.

Lemma perform_quiet (r : Request) (st : Run World) :
  fst (handle r (world st)) = None -> fst (perform r st) = Returned tt.
Proof.
  unfold perform; destruct (handle r (world st)) as [[e'|] w']; simpl;
    intros H; [discriminate|reflexivity].
Qed.

Lemma script_cons (r : Request) (rs : list Request) (st : Run World) :
  script (r :: rs) st =
  match perform r st with
  | (Returned _, st') => script rs st'
  | (Raised e, st') => (Raised e, st')
  end.
Proof. reflexivity. Qed.

Lemma script_app (a b : list Request) (st : Run World) :
  script (a ++ b) st = (script a ;; script b) st.
Proof.
  revert st; induction a as [|r a IH]; intros st.
  - reflexivity.
  - simpl app; rewrite script_cons; unfold bind at 1.
    rewrite script_cons.
    destruct (perform r st) as [[u|e] st1]; [|reflexivity].
    rewrite IH; reflexivity.
Qed.

(** The calls made are always an initial part of the script, in order. *)
Lemma script_issued (rs : list Request) (st : Run World) :
  exists k, issued (snd (script rs st)) = (issued st ++ firstn k rs)%list.
Proof.
  revert st; induction rs as [|r rs IH]; intros st.
  - exists 0%nat; simpl; rewrite app_nil_r; reflexivity.
  - rewrite script_cons.
    pose proof (perform_issued r st) as Hi.
    destruct (perform r st) as [[u|e] st1]; simpl in Hi.
    + destruct (IH st1) as [k Hk].
      exists (S k); rewrite Hk, Hi, <- app_assoc; reflexivity.
    + exists 1%nat; simpl; rewrite Hi; reflexivity.
Qed.

(** A script that returns has made all of its calls. *)
Lemma script_returned (rs : list Request) (st st' : Run World) (u : unit) :
  script rs st = (Returned u, st') -> issued st' = (issued st ++ rs)%list.
Proof.
  revert st; induction rs as [|r rs IH]; intros st H.
  - injection H as _ <-; rewrite app_nil_r; reflexivity.
  - rewrite script_cons in H.
    pose proof (perform_issued r st) as Hi.
    destruct (perform r st) as [[v|e] st1]; [|discriminate].
    simpl in Hi; rewrite (IH _ H), Hi, <- app_assoc; reflexivity.
Qed.

(** An exception that leaves a script was raised by a collaborator, on the
    last call made. *)
Lemma script_raised (rs : list Request) (st st' : Run World) (e : Fault) :
  script rs st = (Raised e, st') ->
  exists (r : Request) (w : World) (before : list Request),
    In r rs /\ issued st' = (before ++ [r])%list /\
    fst (handle r w) = Some e.
Proof.
  revert st; induction rs as [|r rs IH]; intros st H.
  - discriminate.
  - rewrite script_cons in H.
    pose proof (perform_issued r st) as Hi.
    destruct (perform r st) as [[v|e1] st1] eqn:Hp.
    + destruct (IH _ H) as (r' & w & before & Hin & Hl & Hf).
      exists r', w, before; simpl; auto.
    + injection H as <- <-.
      exists r, (world st), (issued st); simpl in Hi.
      split; [left; reflexivity|].
      split; [exact Hi|].
      exact (perform_raised _ _ _ _ Hp).
Qed.

Lemma handle_dependable (r : Request) (w : World) :
  Dependable -> acceptable r -> fst (handle r w) = None.
Proof.
  intros (Hc & Hp & Hs) Hr; destruct r; simpl; auto.
Qed.

Lemma script_dependable (rs : list Request) (st : Run World) :
  Dependable -> Forall acceptable rs ->
  script rs st =
  (Returned tt, {| world := world (snd (script rs st));
                   issued := (issued st ++ rs)%list |}).
Proof.
  intros HD; revert st; induction rs as [|r rs IH]; intros st Hrs.
  - simpl; rewrite app_nil_r; destruct st; reflexivity.
  - inversion Hrs as [|? ? Hr Hrs']; subst.
    rewrite script_cons.
    pose proof (perform_quiet r st (handle_dependable r _ HD Hr)) as Hq.
    pose proof (perform_issued r st) as Hi.
    destruct (perform r st) as [[[]|e] st1]; simpl in Hq, Hi;
      [|discriminate].
    rewrite (IH st1 Hrs') at 1.
    rewrite Hi, <- app_assoc; reflexivity.
Qed.

Lemma handle_clock (now : World -> Q) (r : Request) (w : World) :
  Timed now -> now w <= now (snd (handle r w)).
Proof.
  intros (Hc & Hp & Hs & _); destruct r; simpl; auto.
Qed.

(** No script sets the clock back. *)
Lemma script_clock (now : World -> Q) (rs : list Request) (st : Run World) :
  Timed now -> now (world st) <= now (world (snd (script rs st))).
Proof.
  intros HT; revert st; induction rs as [|r rs IH]; intros st.
  - simpl; apply Qle_refl.
  - rewrite script_cons.
    pose proof (perform_world r st) as Hw.
    pose proof (handle_clock now r (world st) HT) as Hc.
    destruct (perform r st) as [[u|e] st1]; simpl in Hw |- *;
      rewrite <- Hw in Hc; [|exact Hc].
    eapply Qle_trans; [exact Hc|apply IH].
Qed.

(** A script that returns took at least as long as any sleep in it. *)
Lemma script_sleeps (now : World -> Q) (rs : list Request) (d : Q)
      (st st' : Run World) (u : unit) :
  Timed now -> 0 <= d -> In (Sleep d) rs ->
  script rs st = (Returned u, st') ->
  now (world st) + d <= now (world st').
Proof.
  intros HT Hd; revert st; induction rs as [|r rs IH]; intros st Hin H.
  - destruct Hin.
  - rewrite script_cons in H.
    pose proof (perform_world r st) as Hw.
    destruct (perform r st) as [[v|e] st1] eqn:Hp; [|discriminate].
    simpl in Hw.
    destruct Hin as [->|Hin].
    + pose proof (perform_returned _ _ _ _ Hp) as Hq; simpl in Hq.
      pose proof HT as (_ & _ & _ & Hs).
      pose proof (Hs d (world st) Hd Hq) as Hstep.
      simpl in Hw; rewrite <- Hw in Hstep.
      eapply Qle_trans; [exact Hstep|].
      pose proof (script_clock now rs st1) as Hmono.
      rewrite H in Hmono; simpl in Hmono; exact (Hmono HT).
    + pose proof (handle_clock now r (world st) HT) as Hc.
      rewrite <- Hw in Hc.
      pose proof (IH st1 Hin H) as Hrest.
      eapply Qle_trans; [|exact Hrest].
      apply Qplus_le_compat; [exact Hc|apply Qle_refl].
Qed.

End Facts.

(** ** The program as a script of calls *)

Section Scripts.
Context {World Fault : Type} {C : Collaborators World Fault}.

Lemma script_one (r : Request) (st : Run World) :
  script [r] st = perform r st.
Proof.
  rewrite script_cons.
  destruct (perform r st) as [[[]|e] st1]; reflexivity.
Qed.

Lemma show_splash_window_script (duration : option Q) (st : Run World) :
  show_splash_window duration st =
  script (splash_requests (or_default duration (2 # 1))) st.
Proof.
  change (show_splash_window duration st)
    with ((perform Clear ;; perform (Print splash_panel) ;;
           perform (Sleep (or_default duration (2 # 1))) ;;
           perform Clear) st).
  unfold splash_requests, bind; rewrite script_cons.
  destruct (perform Clear st) as [[u1|e1] st1]; [|reflexivity].
  rewrite script_cons.
  destruct (perform (Print splash_panel) st1) as [[u2|e2] st2]; [|reflexivity].
  rewrite script_cons.
  destruct (perform (Sleep _) st2) as [[u3|e3] st3]; [|reflexivity].
  rewrite script_one; reflexivity.
Qed.

Lemma info_script (st : Run World) : info st = script [Print info_line] st.
Proof. rewrite script_one; reflexivity. Qed.

Lemma main_script (ctx : Context) (no_splash : bool) (st : Run World) :
  main ctx no_splash st = script (main_requests ctx no_splash) st.
Proof.
  unfold main, main_requests.
  destruct (is_None (invoked_subcommand ctx) || negb no_splash).
  - apply show_splash_window_script.
  - reflexivity.
Qed.

Lemma cli_app_script (inv : Invocation) (st : Run World) :
  cli_app inv st = script (cli_requests inv) st.
Proof.
  unfold cli_app, cli_requests.
  rewrite script_app; unfold bind.
  rewrite main_script.
  destruct (script _ st) as [[u|e] st1]; [|reflexivity].
  destruct (subcommand inv) as [[]|]; [apply info_script|reflexivity].
Qed.

Lemma cli_requests_acceptable (inv : Invocation) :
  Forall acceptable (cli_requests inv).
Proof.
  destruct inv as [[[]|] []]; repeat constructor; simpl; discriminate.
Qed.

(** With dependable collaborators a run returns, having made exactly the
    calls of its script. *)
Lemma cli_app_dependable (inv : Invocation) (w : World) :
  Dependable ->
  fst (cli_app inv (start w)) = Returned tt /\
  issued (snd (cli_app inv (start w))) = cli_requests inv.
Proof.
  intros HD; rewrite cli_app_script.
  rewrite (script_dependable _ _ HD (cli_requests_acceptable inv)).
  split; reflexivity.
Qed.

End Scripts.

Section Runs.
Context {World Fault : Type} {C : Collaborators World Fault}.


Lemma cli_app_returned (inv : Invocation) (st : Run World) (u : unit) :
  fst (cli_app inv st) = Returned u ->
  issued (snd (cli_app inv st)) = (issued st ++ cli_requests inv)%list.
Proof.
  intros H; rewrite cli_app_script in *.
  apply (script_returned _ _ _ u).
  rewrite <- H; apply surjective_pairing.
Qed.



Lemma cli_app_sleeps (inv : Invocation) (w : World) (d : Q) :
  In d (sleeps (issued (snd (cli_app inv (start w))))) -> d = 2 # 1.
Proof.
  rewrite cli_app_script.
  destruct (script_issued (cli_requests inv) (start w)) as [k Hk].
  rewrite Hk; simpl app; intros H.
  apply sleeps_in, firstn_prefix_in in H.
  destruct inv as [[[]|] []]; simpl in H;
    intuition (try discriminate; congruence).
Qed.

End Runs.

(** ** The simulated terminal is dependable and keeps time *)

Lemma sim_dependable : @Dependable Sim.World Sim.Fault Sim.terminal.
Proof.
  repeat split; intros; simpl; try reflexivity.
  unfold Sim.sleep.
  destruct (Qle_bool 0 d) eqn:E; [reflexivity|].
  apply Qle_bool_iff in H; congruence.
Qed.

Lemma sim_timed : @Timed Sim.World Sim.Fault Sim.terminal Sim.clock.
Proof.
  repeat split; intros; simpl; try apply Qle_refl.
  - unfold Sim.sleep.
    destruct (Qle_bool 0 d) eqn:E; simpl; [|apply Qle_refl].
    apply Qle_bool_iff in E; lra.
  - unfold Sim.sleep.
    destruct (Qle_bool 0 d) eqn:E; simpl; [apply Qle_refl|].
    apply Qle_bool_iff in H; congruence.
Qed.

(** ** Reading the command line *)

Lemma callback_options_flags (k : nat) (rest : list Word) (f : bool) :
  callback_options (repeat NoSplashFlag k ++ InfoWord :: rest) f
  = (f || (0 <? k)%nat, Some rest).
Proof.
  revert f; induction k as [|k IH]; intros f; simpl.
  - rewrite orb_false_r; reflexivity.
  - rewrite IH, orb_true_r; reflexivity.
Qed.

Section CommandLineFacts.
Context {World Fault : Type} {C : Collaborators World Fault}.

(** A command line that names [info] and leaves no word after it runs as
    its parsed form does, and ends as completed. *)
Lemma cli_app_argv_info (argv : list Word) (f : bool) (st : Run World) :
  callback_options argv false = (f, Some []) ->
  cli_app_argv argv st =
  match cli_app {| subcommand := Some Info; flag_no_splash := f |} st with
  | (Returned _, st') => (Returned Completed, st')
  | (Raised e, st') => (Raised e, st')
  end.
Proof.
  intros H; unfold cli_app_argv, cli_app; rewrite H.
  cbn [subcommand flag_no_splash option_map command_callback].
  unfold bind.
  destruct (main _ f st) as [[u|e] st1]; [|reflexivity].
  destruct (info st1) as [[v|e] st2]; reflexivity.
Qed.

(** A word after [info] is turned down, after the callback has run and
    without [info] being called. *)
Lemma cli_app_argv_extra_word
      (argv rest : list Word) (x : Word) (f : bool) (st : Run World) :
  callback_options argv false = (f, Some (x :: rest)) ->
  cli_app_argv argv st =
  match main {| invoked_subcommand := Some "info" |} f st with
  | (Returned _, st') => (Returned UsageError, st')
  | (Raised e, st') => (Raised e, st')
  end.
Proof.
  intros H; unfold cli_app_argv; rewrite H; reflexivity.
Qed.

End CommandLineFacts.

(** ** The dispatcher *)

Section Dispatcher.
Context {World Fault : Type} {C : Collaborators World Fault}.


(** C2: a run with [--no-splash] and no subcommand still presents the
    splash: with collaborators that do not raise it makes the four calls
    of the presenter and exits with status 0. *)
Theorem no_splash_alone_still_presents (w : World) :
  Dependable ->
  issued (snd (cli_app {| subcommand := None; flag_no_splash := true |}
                       (start w)))
  = [Clear; Print splash_panel; Sleep (2 # 1); Clear] /\
  splash_ran
    (issued (snd (cli_app {| subcommand := None; flag_no_splash := true |}
                          (start w)))) = true /\
  exit_code (fst (cli_app {| subcommand := None; flag_no_splash := true |}
                          (start w))) = Some 0%Z.
Proof.
  intros HD.
  destruct (cli_app_dependable
              {| subcommand := None; flag_no_splash := true |} w HD)
    as [Hr Hi].
  rewrite Hr, Hi; repeat split.
Qed.

(** C3, as amended: a command line that gives [--no-splash] before the
    subcommand [info], and nothing after [info], skips the splash: its only
    call prints the info line, whose text contains "Info command", and with
    collaborators that do not raise it exits with status 0. *)
Theorem no_splash_before_info (n : nat) (w : World) :
  Dependable ->
  issued (snd (cli_app_argv (repeat NoSplashFlag (S n) ++ [InfoWord])
                            (start w)))
  = [Print (Markup "[bold] Info command [/bold]")] /\
  splash_ran
    (issued (snd (cli_app_argv (repeat NoSplashFlag (S n) ++ [InfoWord])
                               (start w)))) = false /\
  Substring "Info command" (text_of (Markup "[bold] Info command [/bold]")) /\
  exit_status
    (fst (cli_app_argv (repeat NoSplashFlag (S n) ++ [InfoWord]) (start w)))
  = Some 0%Z.
Proof.
  intros HD.
  rewrite (cli_app_argv_info _ true (start w)
             (callback_options_flags (S n) [] false)).
  destruct (cli_app_dependable
              {| subcommand := Some Info; flag_no_splash := true |} w HD)
    as [Hr Hi].
  destruct (cli_app _ (start w)) as [[u|e] st']; simpl in Hr, Hi;
    [|discriminate].
  simpl; rewrite Hi; repeat split.
  apply contains_sound; reflexivity.
Qed.

(** C5: the duration defaults to 2.0 seconds and the dispatcher never
    overrides it: the presenter called without an argument is the presenter
    called with 2.0; every sleep of every run is a sleep of 2.0 seconds; and
    a run that completes has slept 2.0 seconds once when the splash was due
    and not at all otherwise. *)
Theorem splash_duration_is_default
  (inv : Invocation) (w : World) (st : Run World) :
  show_splash_window None st = show_splash_window (Some (2 # 1)) st /\
  Forall (fun d => d = 2 # 1)
         (sleeps (issued (snd (cli_app inv (start w))))) /\
  match fst (cli_app inv (start w)) with
  | Returned _ =>
      sleeps (issued (snd (cli_app inv (start w)))) =
      if is_None (subcommand inv) || negb (flag_no_splash inv)
      then [2 # 1] else []
  | Raised _ => True
  end.
Proof.
  split; [reflexivity|]; split.
  - apply Forall_forall; intros d Hd.
    exact (cli_app_sleeps inv w d Hd).
  - destruct (fst (cli_app inv (start w))) as [u|e] eqn:Hr; [|exact I].
    rewrite (cli_app_returned inv (start w) u Hr).
    destruct inv as [[[]|] []]; reflexivity.
Qed.

(** C10: the handler of [info] makes one call, the print of its line, and
    changes the world as that print does; so a run in which the splash is
    skipped prints that line and neither clears the terminal nor sleeps. *)
Theorem info_only_prints (inv : Invocation) (w : World) (st : Run World) :
  is_None (subcommand inv) || negb (flag_no_splash inv) = false ->
  issued (snd (info st)) = (issued st ++ [Print info_line])%list /\
  world (snd (info st)) = snd (print_impl info_line (world st)) /\
  issued (snd (cli_app inv (start w))) = [Print info_line] /\
  splash_ran (issued (snd (cli_app inv (start w)))) = false /\
  sleeps (issued (snd (cli_app inv (start w)))) = [].
Proof.
  intros Hskip.
  assert (Hlog : issued (snd (cli_app inv (start w))) = [Print info_line]).
  { rewrite cli_app_script.
    destruct inv as [[[]|] []]; try discriminate.
    change (cli_requests _) with [Print info_line].
    rewrite script_one; apply perform_issued. }
  rewrite Hlog; repeat split.
  - apply (perform_issued (Print info_line)).
  - apply (perform_world (Print info_line)).
Qed.

End Dispatcher.

(** ** The splash presenter *)

Section Presenter.
Context {World Fault : Type} {C : Collaborators World Fault}.

(** C4: a call of the splash presenter that returns has made four calls,
    in this order: clear the terminal; print the title and author lines
    inside a panel (a bordered container) that is centred horizontally and
    carries a dimmed "Loading" caption on its border; sleep for the given
    duration (2.0 seconds when none is given); clear the terminal again.
    The panel is not centred vertically: the program asks for
    [vertical="middle"] but gives no height, neither to [Align.center] nor
    to [console.print], and without a height rich places nothing. *)
Theorem presenter_steps_without_vertical_centring
  (duration : option Q) (st st' : Run World) (u : unit) :
  show_splash_window duration st = (Returned u, st') ->
  exists (content body : Renderable) (border caption : string),
    issued st' =
      (issued st ++
       [Clear; Print content;
        Sleep (match duration with Some d => d | None => 2 # 1 end);
        Clear])%list /\
    centered_horizontally content = true /\
    vertical_requested content = Some "middle" /\
    vertical_applied content print_height = None /\
    frame_of content = Some (body, border, Some caption) /\
    text_of body =
      LF ++ " CLI Buddy v0.1.0" ++
      LF ++ " Author <Iurii Golubnichenko aka Ghost Rider>" /\
    dimmed caption /\
    Substring "Loading" caption.
Proof.
  intros H; rewrite show_splash_window_script in H.
  apply script_returned in H.
  exists splash_panel; eexists _, _, _.
  split.
  - rewrite H; destruct duration; reflexivity.
  - do 5 (split; [reflexivity|]).
    split.
    + exists "Loading ... "; reflexivity.
    + apply contains_sound; reflexivity.
Qed.

(** C6: with a wall clock that no collaborator sets back and a
    [time.sleep] that returns no earlier than asked, a call of the splash
    presenter with a duration [d > 0] returns at least [d] seconds after it
    was made. *)
Theorem presenter_blocks_at_least
  (now : World -> Q) (d : Q) (st st' : Run World) (u : unit) :
  Timed now ->
  0 < d ->
  show_splash_window (Some d) st = (Returned u, st') ->
  now (world st) + d <= now (world st').
Proof.
  intros HT Hd H; rewrite show_splash_window_script in H.
  apply (script_sleeps now (splash_requests d) d st st' u HT).
  - apply Qlt_le_weak; exact Hd.
  - simpl; auto.
  - exact H.
Qed.

(** C7: what a completed call of the splash presenter has printed is one
    renderable: a panel, hence framed by a border, whose text contains
    "CLI Buddy v0.1.0" and whose border caption contains "Loading". *)
Theorem splash_output_content
  (duration : option Q) (st st' : Run World) (u : unit) :
  show_splash_window duration st = (Returned u, st') ->
  exists (content body : Renderable) (border caption : string),
    prints (issued st') = (prints (issued st) ++ [content])%list /\
    frame_of content = Some (body, border, Some caption) /\
    Substring "CLI Buddy v0.1.0" (text_of content) /\
    Substring "Loading" caption.
Proof.
  intros H; rewrite show_splash_window_script in H.
  apply script_returned in H.
  eexists splash_panel, _, _, _.
  split; [rewrite H, prints_app; reflexivity|].
  split; [reflexivity|].
  split; apply contains_sound; reflexivity.
Qed.

(** C8: the splash presenter checks nothing and raises nothing of its own,
    whatever the duration, positive or not: when the collaborators carry
    out its four calls it returns, having passed the duration to
    [time.sleep] as it is; and an exception that leaves it was raised by a
    collaborator, on the last call the presenter made. *)
Theorem presenter_raises_nothing_itself
  (duration : option Q) (st : Run World) :
  ((forall r w, In r (splash_requests (or_default duration (2 # 1))) ->
                fst (handle r w) = None) ->
   fst (show_splash_window duration st) = Returned tt /\
   issued (snd (show_splash_window duration st)) =
     (issued st ++ splash_requests (or_default duration (2 # 1)))%list) /\
  (forall e, fst (show_splash_window duration st) = Raised e ->
             exists (r : Request) (w : World) (before : list Request),
               In r (splash_requests (or_default duration (2 # 1))) /\
               issued (snd (show_splash_window duration st)) =
                 (before ++ [r])%list /\
               fst (handle r w) = Some e).
Proof.
  rewrite show_splash_window_script.
  set (rs := splash_requests (or_default duration (2 # 1))).
  assert (Hraised : forall e, fst (script rs st) = Raised e ->
            exists (r : Request) (w : World) (before : list Request),
              In r rs /\ issued (snd (script rs st)) = (before ++ [r])%list /\
              fst (handle r w) = Some e).
  { intros e He.
    apply (script_raised rs st (snd (script rs st)) e).
    rewrite <- He; apply surjective_pairing. }
  split; [|exact Hraised].
  intros Hquiet.
  destruct (fst (script rs st)) as [[]|e] eqn:Hr.
  - split; [reflexivity|].
    apply (script_returned rs st _ tt).
    rewrite <- Hr; apply surjective_pairing.
  - destruct (Hraised e eq_refl) as (r & w & before & Hin & _ & Hf).
    rewrite (Hquiet r w Hin) in Hf; discriminate.
Qed.

End Presenter.

(** ** Runs of the whole program *)

(** C9: the calls a run makes are decided by the parsed command line alone:
    two runs of the same command line that both complete have made the same
    calls with the same arguments in the same order and exit with the same
    status, whatever world each run started in and whatever each run's
    collaborators did to it. *)
Theorem runs_are_deterministic
  {W1 F1 : Type} {C1 : Collaborators W1 F1}
  {W2 F2 : Type} {C2 : Collaborators W2 F2}
  (inv : Invocation) (w1 : W1) (w2 : W2) :
  fst (cli_app inv (start w1)) = Returned tt ->
  fst (cli_app inv (start w2)) = Returned tt ->
  issued (snd (cli_app inv (start w1))) =
  issued (snd (cli_app inv (start w2))) /\
  exit_code (fst (cli_app inv (start w1))) =
  exit_code (fst (cli_app inv (start w2))).
Proof.
  intros H1 H2.
  rewrite (cli_app_returned inv (start w1) tt H1).
  rewrite (cli_app_returned inv (start w2) tt H2).
  rewrite H1, H2; split; reflexivity.
Qed.

(** Whatever the collaborators do, the calls of a run are an initial part
    of the calls its command line asks for: two runs of one command line
    agree on every call that both of them get to. *)
Lemma cli_app_issued_prefix
  {World Fault : Type} {C : Collaborators World Fault}
  (inv : Invocation) (w : World) :
  exists k, issued (snd (cli_app inv (start w))) = firstn k (cli_requests inv).
Proof.
  rewrite cli_app_script.
  destruct (script_issued (cli_requests inv) (start w)) as [k Hk].
  exists k; exact Hk.
Qed.

(** ** Runs on the simulated terminal and on the test double *)

(** [info] without [--no-splash]: the splash first, then the info line. *)
Example sim_info_after_splash :
  cli_app (C := Sim.terminal)
          {| subcommand := Some Info; flag_no_splash := false |}
          (start Sim.boot)
  = (Returned tt,
     {| world := {| Sim.clock := 0 + (2 # 1); Sim.screen := [info_line] |};
        issued := [Clear; Print splash_panel; Sleep (2 # 1); Clear;
                   Print info_line] |}).
Proof. reflexivity. Qed.

(** A negative duration goes to [time.sleep] unchecked; the simulated
    [time.sleep] raises, and the second clear is never made. *)
Example sim_negative_duration :
  show_splash_window (C := Sim.terminal) (Some (-1 # 1)) (start Sim.boot)
  = (Raised Sim.ValueError,
     {| world := {| Sim.clock := 0; Sim.screen := [splash_panel] |};
        issued := [Clear; Print splash_panel; Sleep (-1 # 1)] |}).
Proof. reflexivity. Qed.

(** With collaborators that accept it, a negative duration is as good as
    any other. *)
Example fake_negative_duration :
  show_splash_window (C := Fake.double) (Some (-1 # 1)) (start 0%nat)
  = (Returned tt,
     {| world := 4%nat;
        issued := [Clear; Print splash_panel; Sleep (-1 # 1); Clear] |}).
Proof. reflexivity. Qed.

(** A zero duration on the simulated terminal. *)
Example sim_zero_duration :
  fst (show_splash_window (C := Sim.terminal) (Some 0) (start Sim.boot))
  = Returned tt.
Proof. reflexivity. Qed.

(** ** The theorems at concrete runs *)

Lemma no_splash_alone_still_presents_witness :
  @Dependable Sim.World Sim.Fault Sim.terminal /\
  issued (snd (cli_app (C := Sim.terminal)
                       {| subcommand := None; flag_no_splash := true |}
                       (start Sim.boot)))
  = [Clear; Print splash_panel; Sleep (2 # 1); Clear] /\
  splash_ran
    (issued (snd (cli_app (C := Sim.terminal)
                          {| subcommand := None; flag_no_splash := true |}
                          (start Sim.boot)))) = true /\
  exit_code (fst (cli_app (C := Sim.terminal)
                          {| subcommand := None; flag_no_splash := true |}
                          (start Sim.boot))) = Some 0%Z.
Proof.
  split; [exact sim_dependable|].
  exact (no_splash_alone_still_presents (C := Sim.terminal)
           Sim.boot sim_dependable).
Defined.

Lemma presenter_blocks_at_least_witness :
  0 < 2 # 1 /\
  Sim.clock Sim.boot + (2 # 1) <=
  Sim.clock (world (snd (show_splash_window (C := Sim.terminal)
                                            (Some (2 # 1))
                                            (start Sim.boot)))).
Proof.
  split; [reflexivity|].
  apply (presenter_blocks_at_least (C := Sim.terminal) Sim.clock (2 # 1)
           (start Sim.boot) _ tt sim_timed).
  - reflexivity.
  - reflexivity.
Defined.

Lemma splash_output_content_witness :
  exists (content body : Renderable) (border caption : string),
    prints (issued (snd (show_splash_window (C := Fake.double)
                                            (Some (1 # 2)) (start 0%nat)))) =
      (prints (issued (start 0%nat)) ++ [content])%list /\
    frame_of content = Some (body, border, Some caption) /\
    Substring "CLI Buddy v0.1.0" (text_of content) /\
    Substring "Loading" caption.
Proof.
  apply (splash_output_content (C := Fake.double) (Some (1 # 2))
           (start 0%nat) _ tt).
  reflexivity.
Defined.

Lemma runs_are_deterministic_witness :
  issued (snd (cli_app (C := Sim.terminal)
                       {| subcommand := Some Info; flag_no_splash := false |}
                       (start Sim.boot))) =
  issued (snd (cli_app (C := Fake.double)
                       {| subcommand := Some Info; flag_no_splash := false |}
                       (start 7%nat))) /\
  exit_code (fst (cli_app (C := Sim.terminal)
                          {| subcommand := Some Info; flag_no_splash := false |}
                          (start Sim.boot))) =
  exit_code (fst (cli_app (C := Fake.double)
                          {| subcommand := Some Info; flag_no_splash := false |}
                          (start 7%nat))).
Proof.
  apply (runs_are_deterministic (C1 := Sim.terminal) (C2 := Fake.double)
           {| subcommand := Some Info; flag_no_splash := false |}
           Sim.boot 7%nat); reflexivity.
Defined.

Lemma info_only_prints_witness :
  issued (snd (cli_app (C := Sim.terminal)
                       {| subcommand := Some Info; flag_no_splash := true |}
                       (start Sim.boot))) = [Print info_line] /\
  splash_ran
    (issued (snd (cli_app (C := Sim.terminal)
                          {| subcommand := Some Info; flag_no_splash := true |}
                          (start Sim.boot)))) = false.
Proof.
  pose proof (info_only_prints (C := Sim.terminal)
                {| subcommand := Some Info; flag_no_splash := true |}
                Sim.boot (start Sim.boot) eq_refl) as (_ & _ & Hlog & Hran & _).
  split; [exact Hlog|exact Hran].
Defined.

(** ** Further properties of the presenter and of whole runs *)

Lemma firstn_snoc_split {A : Type} (l : list A) (x : A) (k : nat)
      (before after : list A) :
  ~ In x l ->
  firstn k (l ++ [x]) = (before ++ x :: after)%list ->
  before = l /\ after = [].
Proof.
  revert k before; induction l as [|y l IH]; intros k before Hx H.
  - destruct k as [|k]; [destruct before; discriminate|].
    simpl in H; rewrite firstn_nil in H.
    destruct before as [|z before]; simpl in H.
    + injection H as <-; split; reflexivity.
    + injection H as _ H; destruct before; discriminate.
  - destruct k as [|k]; [destruct before; discriminate|].
    simpl in H.
    destruct before as [|z before]; simpl in H; injection H as <- H.
    + exfalso; apply Hx; left; reflexivity.
    + destruct (IH k before) as [-> ->]; [|exact H|split; reflexivity].
      intros Hin; apply Hx; right; exact Hin.
Qed.

Lemma no_info_line_in_splash (d : Q) :
  ~ In (Print info_line) (splash_requests d).
Proof.
  unfold splash_requests, splash_panel, info_line; simpl.
  intuition discriminate.
Qed.

Lemma prints_in (log : list Request) (x : Renderable) :
  In x (prints log) -> In (Print x) log.
Proof.
  induction log as [|[] log IH]; simpl; intros H; try tauto.
  destruct H as [->|H]; [left; reflexivity|right; tauto].
Qed.

Lemma sleeps_firstn_length (k : nat) (l : list Request) :
  (List.length (sleeps (firstn k l)) <= List.length (sleeps l))%nat.
Proof.
  revert k; induction l as [|r l IH]; intros k.
  - rewrite firstn_nil; apply Nat.le_refl.
  - destruct k as [|k]; [apply Nat.le_0_l|].
    destruct r; simpl; try apply IH.
    apply le_n_S, IH.
Qed.

Lemma cli_requests_bounds (inv : Invocation) :
  (List.length (cli_requests inv) <= 5)%nat /\
  (List.length (sleeps (cli_requests inv)) <= 1)%nat.
Proof.
  destruct inv as [[[]|] []]; simpl; repeat constructor.
Qed.

Lemma cli_requests_prints (inv : Invocation) (x : Renderable) :
  In (Print x) (cli_requests inv) -> x = splash_panel \/ x = info_line.
Proof.
  destruct inv as [[[]|] []]; simpl;
    intuition (try discriminate; try congruence).
Qed.

Lemma cli_requests_sleep (inv : Invocation) :
  is_None (subcommand inv) || negb (flag_no_splash inv) = true ->
  In (Sleep (2 # 1)) (cli_requests inv).
Proof.
  destruct inv as [[[]|] []]; simpl; intros H; try discriminate; auto.
Qed.

Section Further.
Context {World Fault : Type} {C : Collaborators World Fault}.

(** X1: the presenter has no handler around its sleep.  When clearing and
    printing go through and a call of the presenter ends with an
    exception, the exception came out of [time.sleep] or out of the last
    clear; when it came out of [time.sleep], the calls made are clear,
    print, sleep: the terminal is not cleared again, and the world is left
    as [time.sleep] left it. *)
Theorem interrupted_sleep_leaves_splash
  (duration : option Q) (st st' : Run World) (e : Fault) :
  (forall x w, fst (print_impl x w) = None) ->
  (forall w, fst (clear_impl w) = None) ->
  show_splash_window duration st = (Raised e, st') ->
  issued st' =
    (issued st ++
     [Clear; Print splash_panel; Sleep (or_default duration (2 # 1))])%list /\
  world st' =
    snd (sleep_impl (or_default duration (2 # 1))
           (snd (print_impl splash_panel (snd (clear_impl (world st)))))) /\
  fst (sleep_impl (or_default duration (2 # 1))
         (snd (print_impl splash_panel (snd (clear_impl (world st))))))
  = Some e.
Proof.
  intros Hprint Hclear H.
  rewrite show_splash_window_script in H.
  unfold splash_requests in H.
  rewrite script_cons in H.
  pose proof (perform_issued Clear st) as Hi1.
  pose proof (perform_world Clear st) as Hw1.
  destruct (perform Clear st) as [[u1|e1] st1] eqn:Hp1.
  2:{ apply perform_raised in Hp1; simpl in Hp1.
      rewrite Hclear in Hp1; discriminate. }
  rewrite script_cons in H.
  pose proof (perform_issued (Print splash_panel) st1) as Hi2.
  pose proof (perform_world (Print splash_panel) st1) as Hw2.
  destruct (perform (Print splash_panel) st1) as [[u2|e2] st2] eqn:Hp2.
  2:{ apply perform_raised in Hp2; simpl in Hp2.
      rewrite Hprint in Hp2; discriminate. }
  rewrite script_cons in H.
  set (d := or_default duration (2 # 1)) in *.
  pose proof (perform_issued (Sleep d) st2) as Hi3.
  pose proof (perform_world (Sleep d) st2) as Hw3.
  simpl in Hi1, Hw1, Hi2, Hw2, Hi3, Hw3.
  destruct (perform (Sleep d) st2) as [[u3|e3] st3] eqn:Hp3.
  - rewrite script_one in H.
    apply perform_raised in H; simpl in H.
    rewrite Hclear in H; discriminate.
  - injection H as <- <-.
    apply perform_raised in Hp3; simpl in Hp3, Hi3, Hw3.
    rewrite Hw2, Hw1 in Hw3, Hp3.
    rewrite Hi3, Hi2, Hi1, <- !app_assoc.
    repeat split; assumption.
Qed.

(** X2: nothing follows the info line.  Wherever the print of the info
    line occurs in the trace of a run, it is the last call of the run, the
    subcommand was [info], and what precedes it is the complete splash
    presentation when the splash was due and nothing otherwise; so no
    clear ever wipes the info line. *)
Theorem info_line_is_last
  (inv : Invocation) (w : World) (before after : list Request) :
  issued (snd (cli_app inv (start w)))
  = (before ++ Print info_line :: after)%list ->
  after = [] /\
  subcommand inv = Some Info /\
  before = if flag_no_splash inv
           then []
           else [Clear; Print splash_panel; Sleep (2 # 1); Clear].
Proof.
  destruct (cli_app_issued_prefix inv w) as [k Hk].
  rewrite Hk; clear Hk; intros H.
  assert (Hno : forall l, ~ In (Print info_line) l ->
                          firstn k l <> (before ++ Print info_line :: after)%list).
  { intros l Hl E; apply Hl, (firstn_prefix_in k).
    rewrite E; apply in_elt. }
  destruct inv as [[[]|] []].
  - apply (firstn_snoc_split [] _ k) in H as [-> ->]; [|intros []].
    repeat split.
  - apply (firstn_snoc_split (splash_requests (2 # 1)) _ k) in H
      as [-> ->]; [|apply no_info_line_in_splash].
    repeat split.
  - exfalso; apply (Hno (splash_requests (2 # 1)));
      [apply no_info_line_in_splash|exact H].
  - exfalso; apply (Hno (splash_requests (2 # 1)));
      [apply no_info_line_in_splash|exact H].
Qed.

(** X3: however the collaborators behave, a run makes at most five calls,
    sleeps at most once, and prints nothing but the splash panel and the
    info line. *)
Theorem run_is_bounded (inv : Invocation) (w : World) :
  (List.length (issued (snd (cli_app inv (start w)))) <= 5)%nat /\
  (List.length (sleeps (issued (snd (cli_app inv (start w))))) <= 1)%nat /\
  Forall (fun x => x = splash_panel \/ x = info_line)
         (prints (issued (snd (cli_app inv (start w))))).
Proof.
  destruct (cli_app_issued_prefix inv w) as [k Hk]; rewrite Hk.
  destruct (cli_requests_bounds inv) as [Hlen Hsl].
  split; [|split].
  - rewrite length_firstn.
    eapply Nat.le_trans; [apply Nat.le_min_r|exact Hlen].
  - eapply Nat.le_trans; [apply sleeps_firstn_length|exact Hsl].
  - apply Forall_forall; intros x Hx.
    apply (cli_requests_prints inv).
    apply (firstn_prefix_in k), prints_in; exact Hx.
Qed.

(** X4: with a wall clock that no collaborator sets back and a
    [time.sleep] that returns no earlier than asked, a run in which the
    splash is due and which completes ends at least 2.0 seconds after it
    began; the output of [info] without [--no-splash] is held back that
    long. *)
Theorem splash_delays_the_run
  (now : World -> Q) (inv : Invocation) (w : World) :
  Timed now ->
  is_None (subcommand inv) || negb (flag_no_splash inv) = true ->
  fst (cli_app inv (start w)) = Returned tt ->
  now w + (2 # 1) <= now (world (snd (cli_app inv (start w)))).
Proof.
  intros HT Hdue Hr; rewrite cli_app_script in *.
  apply (script_sleeps now (cli_requests inv) (2 # 1) (start w) _ tt HT).
  - discriminate.
  - apply cli_requests_sleep; exact Hdue.
  - rewrite <- Hr; apply surjective_pairing.
Qed.


(** X7: with collaborators that do not raise, every parsed command line
    runs to completion and exits with status 0, having made the calls of
    the splash presentation when the splash was due, followed by the print
    of the info line when [info] was named. *)
Theorem every_run_completes (inv : Invocation) (w : World) :
  Dependable ->
  fst (cli_app inv (start w)) = Returned tt /\
  exit_code (fst (cli_app inv (start w))) = Some 0%Z /\
  issued (snd (cli_app inv (start w))) =
    ((if is_None (subcommand inv) || negb (flag_no_splash inv)
      then [Clear; Print splash_panel; Sleep (2 # 1); Clear]
      else []) ++
     match subcommand inv with
     | Some Info => [Print info_line]
     | None => []
     end)%list.
Proof.
  intros HD.
  destruct (cli_app_dependable inv w HD) as [Hr Hi].
  rewrite Hr, Hi; repeat split.
  destruct inv as [[[]|] []]; reflexivity.
Qed.

End Further.

(** X6: two runs of one command line, in any two worlds and with any two
    implementations of the collaborators, agree call for call as far as
    both of them get: the trace of one is an initial part of the trace of
    the other. *)
Theorem runs_agree_as_far_as_they_go
  {W1 F1 : Type} {C1 : Collaborators W1 F1}
  {W2 F2 : Type} {C2 : Collaborators W2 F2}
  (inv : Invocation) (w1 : W1) (w2 : W2) :
  exists k,
    issued (snd (cli_app inv (start w1))) =
      firstn k (issued (snd (cli_app inv (start w2)))) \/
    issued (snd (cli_app inv (start w2))) =
      firstn k (issued (snd (cli_app inv (start w1)))).
Proof.
  destruct (cli_app_issued_prefix (C := C1) inv w1) as [k1 H1].
  destruct (cli_app_issued_prefix (C := C2) inv w2) as [k2 H2].
  rewrite H1, H2.
  destruct (Nat.le_ge_cases k1 k2) as [Hle|Hle].
  - exists k1; left.
    rewrite firstn_firstn, Nat.min_l by exact Hle; reflexivity.
  - exists k2; right.
    rewrite firstn_firstn, Nat.min_l by exact Hle; reflexivity.
Qed.

(** ** The further properties at concrete runs *)

Lemma interrupted_sleep_leaves_splash_witness :
  show_splash_window (C := Sim.terminal) (Some (-1 # 1)) (start Sim.boot)
  = (Raised Sim.ValueError,
     snd (show_splash_window (C := Sim.terminal) (Some (-1 # 1))
                             (start Sim.boot))) /\
  issued (snd (show_splash_window (C := Sim.terminal) (Some (-1 # 1))
                                  (start Sim.boot)))
  = [Clear; Print splash_panel; Sleep (-1 # 1)].
Proof.
  split; [reflexivity|].
  exact (proj1 (interrupted_sleep_leaves_splash (C := Sim.terminal)
                  (Some (-1 # 1)) (start Sim.boot) _ Sim.ValueError
                  (fun _ _ => eq_refl) (fun _ => eq_refl) eq_refl)).
Defined.

Lemma info_line_is_last_witness :
  issued (snd (cli_app (C := Sim.terminal)
                       {| subcommand := Some Info; flag_no_splash := false |}
                       (start Sim.boot)))
  = ([Clear; Print splash_panel; Sleep (2 # 1); Clear]
     ++ Print info_line :: [])%list /\
  ([] : list Request) = [] /\
  Some Info = Some Info /\
  [Clear; Print splash_panel; Sleep (2 # 1); Clear]
  = [Clear; Print splash_panel; Sleep (2 # 1); Clear].
Proof.
  split; [reflexivity|].
  exact (info_line_is_last (C := Sim.terminal)
           {| subcommand := Some Info; flag_no_splash := false |}
           Sim.boot [Clear; Print splash_panel; Sleep (2 # 1); Clear] []
           eq_refl).
Defined.

Lemma splash_delays_the_run_witness :
  Sim.clock Sim.boot + (2 # 1) <=
  Sim.clock
    (world (snd (cli_app (C := Sim.terminal)
                         {| subcommand := None; flag_no_splash := true |}
                         (start Sim.boot)))).
Proof.
  exact (splash_delays_the_run (C := Sim.terminal) Sim.clock
           {| subcommand := None; flag_no_splash := true |} Sim.boot
           sim_timed eq_refl eq_refl).
Defined.

Lemma every_run_completes_witness :
  @Dependable Sim.World Sim.Fault Sim.terminal /\
  fst (cli_app (C := Sim.terminal)
               {| subcommand := Some Info; flag_no_splash := false |}
               (start Sim.boot)) = Returned tt.
Proof.
  split; [exact sim_dependable|].
  exact (proj1 (every_run_completes (C := Sim.terminal)
                  {| subcommand := Some Info; flag_no_splash := false |}
                  Sim.boot sim_dependable)).
Defined.

(** With a height the vertical placement asked for is carried out: it is
    the missing height, not the request, that leaves the splash at the
    top. *)
Example vertical_applied_within_a_height :
  vertical_applied (Align (Markup "x") "center" (Some "middle") None) (Some 24%nat)
  = Some "middle" /\
  vertical_applied (Align (Markup "x") "center" (Some "middle") (Some 10%nat)) None
  = Some "middle" /\
  vertical_applied (Align (Markup "x") "center" (Some "middle") (Some 0%nat)) None
  = None.
Proof. repeat split. Qed.

(** [info --no-splash]: the option is the callback's and comes too late.
    The callback has run with [no_splash] false, so the splash was
    presented; [info] was not called, so the info line was not printed; and
    typer ends the run with status 2. *)
Lemma info_before_no_splash_counterexample :
  splash_ran
    (issued (snd (cli_app_argv (C := Sim.terminal) [InfoWord; NoSplashFlag]
                               (start Sim.boot)))) = true /\
  issued (snd (cli_app_argv (C := Sim.terminal) [InfoWord; NoSplashFlag]
                            (start Sim.boot)))
  = [Clear; Print splash_panel; Sleep (2 # 1); Clear] /\
  ~ In (Print info_line)
       (issued (snd (cli_app_argv (C := Sim.terminal) [InfoWord; NoSplashFlag]
                                  (start Sim.boot)))) /\
  exit_status
    (fst (cli_app_argv (C := Sim.terminal) [InfoWord; NoSplashFlag]
                       (start Sim.boot))) = Some 2%Z.
Proof.
  repeat split.
  apply no_info_line_in_splash.
Qed.

Lemma no_splash_before_info_witness :
  @Dependable Sim.World Sim.Fault Sim.terminal /\
  issued (snd (cli_app_argv (C := Sim.terminal) [NoSplashFlag; InfoWord]
                            (start Sim.boot)))
  = [Print (Markup "[bold] Info command [/bold]")] /\
  exit_status
    (fst (cli_app_argv (C := Sim.terminal) [NoSplashFlag; InfoWord]
                       (start Sim.boot))) = Some 0%Z.
Proof.
  split; [exact sim_dependable|].
  pose proof (no_splash_before_info (C := Sim.terminal) 0 Sim.boot
                sim_dependable) as (Hlog & _ & _ & Hexit).
  split; [exact Hlog|exact Hexit].
Defined.

Lemma presenter_steps_without_vertical_centring_witness :
  fst (show_splash_window (C := Sim.terminal) (Some (1 # 2)) (start Sim.boot))
  = Returned tt /\
  exists (content body : Renderable) (border caption : string),
    issued (snd (show_splash_window (C := Sim.terminal) (Some (1 # 2))
                                    (start Sim.boot))) =
      (issued (start Sim.boot) ++
       [Clear; Print content; Sleep (1 # 2); Clear])%list /\
    centered_horizontally content = true /\
    vertical_requested content = Some "middle" /\
    vertical_applied content print_height = None /\
    frame_of content = Some (body, border, Some caption) /\
    text_of body =
      LF ++ " CLI Buddy v0.1.0" ++
      LF ++ " Author <Iurii Golubnichenko aka Ghost Rider>" /\
    dimmed caption /\
    Substring "Loading" caption.
Proof.
  split; [reflexivity|].
  apply (presenter_steps_without_vertical_centring (C := Sim.terminal)
           (Some (1 # 2)) (start Sim.boot) _ tt).
  reflexivity.
Defined.

